(** * vlm-object-verifier: the caption/image object pipeline of [main.py]

    A shallow embedding of [src/main.py] and the properties of its
    extraction, normalization and reconciliation steps.

    Conventions of the model.
    - Python [str] values are Rocq [string]s.  The case mapping and the
      [repr] escapes below are those of Python on ASCII text ([is_ascii]);
      bytes above 127 are carried through unchanged, which is not
      Python's mapping of the characters they encode.  Statements about
      the length of a lower-cased text or about lower-casing a
      concatenation are therefore made for ASCII text.
    - Python [set]s of strings are [gset string]; a [list(s)] of a set is
      [elements s] (Python leaves that order unspecified, and the program
      only ever turns such a list back into a set or prints it).
    - The outside world (environment variable, the Groq service together
      with [json.loads], the YOLO model, the file system) is a record of
      answers, [world]; the program is a function of it.
    - Console output and calls to the outside services are recorded, in
      order, in a trace of [event]s. *)

From Stdlib Require Import Ascii.
From stdpp Require Import base gmap sets list strings pretty.

Set Warnings "-register-all,-clear-no-such-hyp".

Local Open Scope string_scope.
Local Open Scope list_scope.
Local Open Scope Z_scope.

(* ------------------------------------------------------------------ *)
(** ** Python strings *)

Module PyStr.

(** [str.lower()] on one ASCII character: [A]..[Z] go to [a]..[z]. *)
Definition ascii_lower (c : ascii) : ascii :=
  let n := N_of_ascii c in
  if ((65 <=? n) && (n <=? 90))%N then ascii_of_N (n + 32) else c.

(** [s.lower()] *)
Fixpoint lower (s : string) : string :=
  match s with
  | EmptyString => EmptyString
  | String c r => String (ascii_lower c) (lower r)
  end.

(** [sep.join(parts)] *)
Fixpoint join (sep : string) (parts : list string) : string :=
  match parts with
  | [] => EmptyString
  | [p] => p
  | p :: rest => p +:+ sep +:+ join sep rest
  end.

(** [c in s] for a character [c]. *)
Fixpoint contains (c : ascii) (s : string) : bool :=
  match s with
  | EmptyString => false
  | String d r => if Ascii.eqb c d then true else contains c r
  end.

(** The double-quote character. *)
Definition dquote : ascii := ascii_of_N 34.

Definition hex_digit (n : N) : ascii :=
  (if n <? 10 then ascii_of_N (48 + n) else ascii_of_N (87 + n))%N.

(** The backslash character. *)
Definition backslash : ascii := ascii_of_N 92.

Definition escaped (c : ascii) : string := String backslash (String c EmptyString).

(** One character of [repr(s)] for ASCII text, given the quote character
    in use. *)
Definition repr_char (quote c : ascii) : string :=
  let n := N_of_ascii c in
  if Ascii.eqb c quote || Ascii.eqb c backslash then escaped c
  else if (n =? 9)%N then escaped "t"
  else if (n =? 10)%N then escaped "n"
  else if (n =? 13)%N then escaped "r"
  else if ((n <? 32) || (n =? 127))%N then
    String backslash
      (String "x" (String (hex_digit (n / 16)) (String (hex_digit (n mod 16)) EmptyString)))
  else String c EmptyString.

Fixpoint repr_body (quote : ascii) (s : string) : string :=
  match s with
  | EmptyString => EmptyString
  | String c r => repr_char quote c +:+ repr_body quote r
  end.

(** [repr(s)]: single quotes, unless [s] has a single quote and no
    double quote. *)
Definition repr (s : string) : string :=
  let quote : ascii :=
    if contains "'" s && negb (contains dquote s) then dquote else "'"%char in
  String quote (repr_body quote s +:+ String quote EmptyString).

End PyStr.

(* ------------------------------------------------------------------ *)
(** ** Values produced by [json.loads] *)

(** A decoded JSON document.  An object is a Python [dict]: its items in
    insertion order.  A float is carried as the text [str()] prints for
    it, the only thing the program ever does with one. *)
Inductive json : Type :=
  | JNull
  | JBool (b : bool)
  | JInt (n : Z)
  | JFloat (shown : string)
  | JStr (s : string)
  | JList (items : list json)
  | JDict (items : list (string * json)).

(** [isinstance(v, list)] *)
Definition is_list (v : json) : bool :=
  match v with JList _ => true | _ => false end.

(** [repr(v)] *)
Fixpoint py_repr (v : json) : string :=
  match v with
  | JNull => "None"
  | JBool true => "True"
  | JBool false => "False"
  | JInt n => pretty n
  | JFloat shown => shown
  | JStr s => PyStr.repr s
  | JList items => "[" +:+ PyStr.join ", " (map py_repr items) +:+ "]"
  | JDict items =>
      "{" +:+ PyStr.join ", "
                (map (fun kv => PyStr.repr (fst kv) +:+ ": " +:+ py_repr (snd kv)) items)
          +:+ "}"
  end.

(** [str(v)]: a string is itself, everything else prints as its [repr]. *)
Definition py_str (v : json) : string :=
  match v with
  | JStr s => s
  | _ => py_repr v
  end.

(* ------------------------------------------------------------------ *)
(** ** Effects: console output, service calls, exceptions *)

(** A raised Python exception (a subclass of [Exception]) and the text
    [str(e)] prints for it. *)
Record py_exception : Type := PyExc { exc_class : string; exc_text : string }.

(** The lines the program prints.  Lists are kept as values, not as
    rendered text. *)
Inductive out_line : Type :=
  | OutGroqError (e : py_exception)          (* line 62 *)
  | OutLoadingModel                          (* line 68 *)
  | OutAnalyzing (image_path : string)       (* line 71 *)
  | OutVerifyingHeader                       (* line 87 *)
  | OutImage (image_path : string)           (* line 88 *)
  | OutCaption (caption : string)            (* line 89 *)
  | OutStep1                                 (* line 92 *)
  | OutNoCaptionObjects                      (* line 95 *)
  | OutLLMIdentified (objs : list string)    (* line 97 *)
  | OutStep2                                 (* line 100 *)
  | OutNoDetections                          (* line 103 *)
  | OutYoloDetected (objs : list string)     (* line 105 *)
  | OutStep3                                 (* line 108 *)
  | OutReportHeader                          (* line 115 *)
  | OutVerified (objs : gset string)         (* line 117 *)
  | OutNoneVerified                          (* line 119 *)
  | OutHallucinations (objs : gset string)   (* line 122 *)
  | OutNoHallucinations                      (* line 124 *)
  | OutReportFooter                          (* line 125 *)
  | OutDownloading                           (* line 132 *)
  | OutDownloadComplete                      (* line 139 *)
  | OutDownloadError (text : string)         (* line 141 *)
  | OutImageNotFound (image_path : string).  (* line 166 *)

Inductive event : Type :=
  | EPrint (l : out_line)
  | ECallGroq (caption : string)             (* lines 26-40 *)
  | ELoadYolo                                (* line 69 *)
  | ECallYolo (image_path : string)          (* line 72 *)
  | EDownload.                               (* lines 134-138 *)

(** How a piece of Python code ends: it falls through or returns a
    value, raises an exception, or calls [exit(code)]. *)
Inductive outcome (A : Type) : Type :=
  | Returned (a : A)
  | Raised (e : py_exception)
  | Exited (code : Z).
Arguments Returned {A} a.
Arguments Raised {A} e.
Arguments Exited {A} code.

(** A run: the events so far, in order, and how the code ended. *)
Definition Run (A : Type) : Type := list event * outcome A.

Definition trace {A} (r : Run A) : list event := fst r.
Definition result {A} (r : Run A) : outcome A := snd r.

#[global] Instance Run_ret : MRet Run := fun A a => ([], Returned a).

#[global] Instance Run_bind : MBind Run := fun A B k m =>
  match m with
  | (t, Returned a) => let '(t', o) := k a in (t ++ t', o)
  | (t, Raised e) => (t, Raised e)
  | (t, Exited c) => (t, Exited c)
  end.

Definition emit (e : event) : Run unit := ([e], Returned tt).
Definition print (l : out_line) : Run unit := emit (EPrint l).
Definition raise {A} (e : py_exception) : Run A := ([], Raised e).
Definition sys_exit {A} (code : Z) : Run A := ([], Exited code).

(** [try: body  except Exception as e: handler e] *)
Definition try_except {A} (body : Run A) (handler : py_exception -> Run A) : Run A :=
  match body with
  | (t, Raised e) => let '(t', o) := handler e in (t ++ t', o)
  | r => r
  end.

(** An answer of an outside service: a value, or an exception. *)
Definition answer {A} (a : py_exception + A) : Run A :=
  match a with
  | inl e => raise e
  | inr v => mret v
  end.

(* ------------------------------------------------------------------ *)
(** ** The outside world *)

Inductive download_result : Type :=
  | DownloadOk
  | DownloadRequestException (text : string).

Record world : Type := World {
  (** [os.environ.get("GROQ_API_KEY")], line 13 *)
  GROQ_API_KEY : option string;
  (** line 24, [Groq(api_key=GROQ_API_KEY)]: the exception it raises,
      if any *)
  groq_client : option py_exception;
  (** lines 26-44 for a caption: the request, the choice of the first
      message and [json.loads] of its content; any of these may raise *)
  groq_data : string -> py_exception + json;
  (** line 69, [YOLO('yolov8n.pt')]: the exception it raises, if any *)
  yolo_load : option py_exception;
  (** lines 72-79 for an image: per result, the class names
      [model.names[int(box.cls[0])]] of its boxes *)
  yolo_class_names : string -> py_exception + list (list string);
  (** [Path(p).exists()] *)
  path_exists : string -> bool;
  (** lines 134-138 *)
  download : download_result
}.

Definition DEFAULT_IMAGE_PATH : string := "assets/dogs.jpg".

(** Truth value of [os.environ.get(...)]: [None] and the empty string
    are false. *)
Definition truthy_key (k : option string) : bool :=
  match k with
  | None | Some EmptyString => false
  | Some _ => true
  end.

(* ------------------------------------------------------------------ *)
(** ** The program *)

(** The token the extractor makes of one element, line 59:
    [str(item).lower()]. *)
Definition item_token (item : json) : string := PyStr.lower (py_str item).

(** Lines 51-55: the first dictionary value that is a list, the empty
    list when there is none. *)
Fixpoint first_list_value (items : list (string * json)) : list json :=
  match items with
  | [] => []
  | (_, JList value) :: _ => value
  | _ :: rest => first_list_value rest
  end.

(** [type(v).__name__] *)
Definition type_name (v : json) : string :=
  match v with
  | JNull => "NoneType"
  | JBool _ => "bool"
  | JInt _ => "int"
  | JFloat _ => "float"
  | JStr _ => "str"
  | JList _ => "list"
  | JDict _ => "dict"
  end.

Definition no_items_error (v : json) : py_exception :=
  PyExc "AttributeError" ("'" +:+ type_name v +:+ "' object has no attribute 'items'").

Definition no_list_error : py_exception :=
  PyExc "ValueError" "LLM did not return a list of objects in the expected format.".

Definition missing_key_error : py_exception :=
  PyExc "ValueError" "GROQ_API_KEY not found. Please set it in your .env file.".

(** Lines 46-57: find the list within the parsed JSON. *)
Definition find_extracted_list (data : json) : Run (list json) :=
  match data with
  | JList items => mret items
  | JDict items =>
      match first_list_value items with
      | [] => raise no_list_error
      | extracted_list => mret extracted_list
      end
  | _ => raise (no_items_error data)
  end.

(** Lines 109-113 of [verify_caption]. *)
Record report : Type := Report {
  hallucinated_objects : gset string;
  verified_objects : gset string
}.

Definition reconcile (caption_objects image_objects : list string) : report :=
  let caption_set : gset string := list_to_set caption_objects in
  let image_set : gset string := list_to_set image_objects in
  {| hallucinated_objects := caption_set ∖ image_set;
     verified_objects := caption_set ∩ image_set |}.

(** Lines 74-80: the set built by the two nested loops. *)
Definition collect_class_names (results : list (list string)) : gset string :=
  foldl (fun detected_objects boxes =>
           foldl (fun acc class_name => acc ∪ {[ PyStr.lower class_name ]})
                 detected_objects boxes)
        ∅ results.

(** Parsed command line: [--image] (optional) and [--caption].  The
    image is held as the text of [Path(args.image)], the form in which
    the program prints and tests it. *)
Record cli_args : Type := Args { arg_image : option string; arg_caption : string }.

Definition image_of (args : cli_args) : string :=
  default DEFAULT_IMAGE_PATH (arg_image args).

Section Program.

Variable w : world.

(** Lines 26-59: the body of the [try]. *)
Definition llm_try_body (caption : string) : Run (list string) :=
  emit (ECallGroq caption);;
  data ← answer (groq_data w caption);
  extracted_list ← find_extracted_list data;
  mret (map item_token extracted_list).

(** Lines 19-63. *)
Definition extract_objects_with_llm (caption : string) : Run (list string) :=
  if negb (truthy_key (GROQ_API_KEY w)) then raise missing_key_error
  else
    match groq_client w with Some e => raise e | None => mret tt end;;
    try_except (llm_try_body caption)
      (fun e => print (OutGroqError e);; mret []).

(** Lines 66-82. *)
Definition detect_objects_with_yolo (image_path : string) : Run (list string) :=
  print OutLoadingModel;;
  emit ELoadYolo;;
  match yolo_load w with Some e => raise e | None => mret tt end;;
  print (OutAnalyzing image_path);;
  emit (ECallYolo image_path);;
  results ← answer (yolo_class_names w image_path);
  mret (elements (collect_class_names results)).

(** Lines 115-125. *)
Definition print_report (r : report) : Run unit :=
  print OutReportHeader;;
  (if decide (verified_objects r = ∅) then print OutNoneVerified
   else print (OutVerified (verified_objects r)));;
  (if decide (hallucinated_objects r = ∅) then print OutNoHallucinations
   else print (OutHallucinations (hallucinated_objects r)));;
  print OutReportFooter.

(** Lines 85-125. *)
Definition verify_caption (image_path caption : string) : Run unit :=
  print OutVerifyingHeader;;
  print (OutImage image_path);;
  print (OutCaption caption);;
  print OutStep1;;
  caption_objects ← extract_objects_with_llm caption;
  match caption_objects with
  | [] => print OutNoCaptionObjects
  | _ =>
      print (OutLLMIdentified caption_objects);;
      print OutStep2;;
      image_objects ← detect_objects_with_yolo image_path;
      match image_objects with
      | [] => print OutNoDetections
      | _ =>
          print (OutYoloDetected image_objects);;
          print OutStep3;;
          print_report (reconcile caption_objects image_objects)
      end
  end.

(** Lines 128-142.  [mkdir] is taken to succeed. *)
Definition setup_environment : Run unit :=
  if path_exists w DEFAULT_IMAGE_PATH then mret tt
  else
    print OutDownloading;;
    emit EDownload;;
    match download w with
    | DownloadOk => print OutDownloadComplete
    | DownloadRequestException text => print (OutDownloadError text);; sys_exit 1
    end.

(** Lines 162-169, after [parse_args]. *)
Definition main (args : cli_args) : Run unit :=
  let image_path := image_of args in
  if negb (path_exists w image_path) then print (OutImageNotFound image_path)
  else verify_caption image_path (arg_caption args).

End Program.

(** The file system once [setup_environment] has returned: the assets
    directory and the sample image are there. *)
Definition after_setup (w : world) : world :=
  {| GROQ_API_KEY := GROQ_API_KEY w;
     groq_client := groq_client w;
     groq_data := groq_data w;
     yolo_load := yolo_load w;
     yolo_class_names := yolo_class_names w;
     path_exists := fun p =>
       if decide (p = "assets") then true
       else if decide (p = DEFAULT_IMAGE_PATH) then true
       else path_exists w p;
     download := download w |}.

(** Lines 171-173, for a command line that [parse_args] accepts. *)
Definition script (w : world) (args : cli_args) : Run unit :=
  setup_environment w;;
  main (after_setup w) args.

(** The exit status of the interpreter: 0 when the script runs to its
    end, 1 on an uncaught exception, the code given to [exit]. *)
Definition exit_status {A} (o : outcome A) : Z :=
  match o with
  | Returned _ => 0
  | Raised _ => 1
  | Exited code => code
  end.

(** What a trace shows. *)
Definition is_detection_event (e : event) : bool :=
  match e with
  | ELoadYolo | ECallYolo _ => true
  | EPrint OutLoadingModel | EPrint (OutAnalyzing _) => true
  | _ => false
  end.

Definition is_reconciliation_event (e : event) : bool :=
  match e with
  | EPrint OutStep3 | EPrint OutReportHeader | EPrint (OutVerified _)
  | EPrint OutNoneVerified | EPrint (OutHallucinations _)
  | EPrint OutNoHallucinations | EPrint OutReportFooter => true
  | _ => false
  end.

Definition detection_invoked (t : list event) : bool := existsb is_detection_event t.
Definition reconciliation_performed (t : list event) : bool :=
  existsb is_reconciliation_event t.

(** A string with no upper-case letter. *)
Definition is_upper (c : ascii) : bool :=
  let n := N_of_ascii c in ((65 <=? n) && (n <=? 90))%N.

Fixpoint is_lowercase (s : string) : bool :=
  match s with
  | EmptyString => true
  | String c r => negb (is_upper c) && is_lowercase r
  end.

(** The candidate list as the specification words it: a top-level list
    is used directly; in an object, the values are scanned for the first
    one that is a list; anything else has none. *)
Definition spec_candidate_list (data : json) : option (list json) :=
  match data with
  | JList items => Some items
  | JDict items =>
      match List.find is_list (map snd items) with
      | Some (JList value) => Some value
      | _ => None
      end
  | _ => None
  end.


(** What [verify_caption] prints before it calls the extractor,
    lines 87-92. *)
Definition preamble (image_path caption : string) : list event :=
  [EPrint OutVerifyingHeader; EPrint (OutImage image_path);
   EPrint (OutCaption caption); EPrint OutStep1].

(** The list the extractor goes on with at line 59, when it gets
    there: a top-level list, or the first list value of an object when
    that list is not empty. *)
Definition accepted_list (data : json) : option (list json) :=
  match data with
  | JList items => Some items
  | JDict items =>
      match first_list_value items with
      | [] => None
      | extracted_list => Some extracted_list
      end
  | _ => None
  end.

(** Worlds and inputs used in the examples below. *)
Module Examples.

Definition make_world (key : option string) (reply : py_exception + json)
    (labels : list (list string)) (files : list string) : world :=
  {| GROQ_API_KEY := key;
     groq_client := None;
     groq_data := fun _ => reply;
     yolo_load := None;
     yolo_class_names := fun _ => inr labels;
     path_exists := fun p => bool_decide (p ∈ files);
     download := DownloadOk |}.

(** The wrapped, mixed-case reply [{"objects": ["Cat", "Dog"]}]. *)
Definition wrapped_reply : json :=
  JDict [("objects", JList [JStr "Cat"; JStr "Dog"])].

Definition two_dogs : list (list string) := [["Dog"; "dog"]; ["Couch"]].

Definition connection_error : py_exception :=
  PyExc "APIConnectionError" "Connection error.".

Definition w_wrapped : world :=
  make_world (Some "gsk_1") (inr wrapped_reply) two_dogs [DEFAULT_IMAGE_PATH].

Definition w_offline : world :=
  make_world (Some "gsk_1") (inl connection_error) two_dogs [DEFAULT_IMAGE_PATH].

Definition w_no_key : world :=
  make_world None (inr wrapped_reply) two_dogs [DEFAULT_IMAGE_PATH].

Definition w_blind : world :=
  make_world (Some "gsk_1") (inr wrapped_reply) [] [DEFAULT_IMAGE_PATH].

Definition w_spaces : world :=
  make_world (Some "gsk_1") (inr (JList [JStr "Dog"; JStr " dog "])) two_dogs
             [DEFAULT_IMAGE_PATH].

Definition w_repeat : world :=
  make_world (Some "gsk_1") (inr (JList [JStr "Dog"; JStr "dog"])) two_dogs
             [DEFAULT_IMAGE_PATH].

(** A reply whose list holds every kind of JSON value. *)
Definition mixed_items : list json :=
  [JStr "Cat"; JInt 3; JInt (-7); JBool true; JNull; JFloat "2.5";
   JList [JStr "A"; JStr "b"]; JDict [("K", JStr "V")]].

Definition mixed_reply : json := JDict [("count", JInt 8); ("objects", JList mixed_items)].

Definition w_mixed : world :=
  make_world (Some "gsk_1") (inr mixed_reply) two_dogs [DEFAULT_IMAGE_PATH].

Definition sample_args : cli_args := Args None "A cat and a dog".
Definition missing_image_args : cli_args := Args (Some "no/such.jpg") "A cat and a dog".

End Examples.

(** Counting the calls to the outside services in a trace. *)
Definition is_groq_call (e : event) : bool :=
  match e with ECallGroq _ => true | _ => false end.

Definition is_yolo_call (e : event) : bool :=
  match e with ECallYolo _ => true | _ => false end.

Definition groq_calls (t : list event) : nat := length (List.filter is_groq_call t).
Definition yolo_calls (t : list event) : nat := length (List.filter is_yolo_call t).

(** Line 162, [parser.parse_args()].  The command line is accepted and
    gives the arguments, or argparse ends the process itself: with
    status 2 after a usage error (a missing [--caption], an unknown
    option), with status 0 after printing the help. *)
Inductive parse_outcome : Type :=
  | ParsedArgs (args : cli_args)
  | UsageError
  | HelpRequested.

(** Lines 144-169, [parse_args] included. *)
Definition main_entry (w : world) (cmd : parse_outcome) : Run unit :=
  match cmd with
  | ParsedArgs args => main w args
  | UsageError => sys_exit 2
  | HelpRequested => sys_exit 0
  end.

(** Lines 171-173, from the command line as typed. *)
Definition script_entry (w : world) (cmd : parse_outcome) : Run unit :=
  setup_environment w;;
  main_entry (after_setup w) cmd.

(** The ASCII characters [str.strip()] removes: tab to carriage return,
    the four separators 28-31, and the space. *)
Definition is_space (c : ascii) : bool :=
  let n := N_of_ascii c in
  (((9 <=? n) && (n <=? 13)) || ((28 <=? n) && (n <=? 32)))%N.

Fixpoint is_whitespace (s : string) : bool :=
  match s with
  | EmptyString => true
  | String c r => is_space c && is_whitespace r
  end.

(** Text within ASCII, where [PyStr.lower] is Python's [str.lower()]
    character for character. *)
Fixpoint is_ascii (s : string) : bool :=
  match s with
  | EmptyString => true
  | String c r => (N_of_ascii c <? 128)%N && is_ascii r
  end.

(** Further worlds and inputs for the examples. *)
Module MoreExamples.

Definition out_of_memory : py_exception := PyExc "RuntimeError" "out of memory".

(** The detector raises during inference. *)
Definition w_detector_crash : world :=
  {| GROQ_API_KEY := Some "gsk_1";
     groq_client := None;
     groq_data := fun _ => inr Examples.wrapped_reply;
     yolo_load := None;
     yolo_class_names := fun _ => inl out_of_memory;
     path_exists := fun _ => true;
     download := DownloadOk |}.

(** No sample image on disk, and the download fails. *)
Definition w_download_fails : world :=
  {| GROQ_API_KEY := Some "gsk_1";
     groq_client := None;
     groq_data := fun _ => inr Examples.wrapped_reply;
     yolo_load := None;
     yolo_class_names := fun _ => inr Examples.two_dogs;
     path_exists := fun _ => false;
     download := DownloadRequestException "404 Client Error" |}.

(** No sample image on disk, and the download succeeds. *)
Definition w_fresh : world :=
  {| GROQ_API_KEY := Some "gsk_1";
     groq_client := None;
     groq_data := fun _ => inr Examples.wrapped_reply;
     yolo_load := None;
     yolo_class_names := fun _ => inr Examples.two_dogs;
     path_exists := fun _ => false;
     download := DownloadOk |}.

(** An object whose first list value is empty, with a list after it. *)
Definition hidden_list_reply : json :=
  JDict [("note", JStr "ok"); ("objects", JList []); ("more", JList [JStr "Cat"])].

Definition w_hidden_list : world :=
  Examples.make_world (Some "gsk_1") (inr hidden_list_reply) Examples.two_dogs
                      [DEFAULT_IMAGE_PATH].

Definition w_empty_list : world :=
  Examples.make_world (Some "gsk_1") (inr (JList [])) Examples.two_dogs
                      [DEFAULT_IMAGE_PATH].

Definition bad_proxy : py_exception :=
  PyExc "ValueError" "Unknown scheme for proxy URL".

(** The client cannot be constructed: the transport it sets up rejects
    the proxy configured in the environment. *)
Definition w_client_fails : world :=
  {| GROQ_API_KEY := Some "gsk_1";
     groq_client := Some bad_proxy;
     groq_data := fun _ => inr Examples.wrapped_reply;
     yolo_load := None;
     yolo_class_names := fun _ => inr Examples.two_dogs;
     path_exists := fun _ => true;
     download := DownloadOk |}.

End MoreExamples.

(* ------------------------------------------------------------------ *)
(** * Properties *)

(** ** Lower-casing *)

Lemma ascii_lower_not_upper c : is_upper (PyStr.ascii_lower c) = false.
Proof.
  unfold PyStr.ascii_lower, is_upper.
  destruct ((65 <=? N_of_ascii c) && (N_of_ascii c <=? 90))%N eqn:E; [|exact E].
  apply andb_true_iff in E as [E1 E2].
  apply N.leb_le in E1. apply N.leb_le in E2.
  rewrite N_ascii_embedding by lia.
  apply andb_false_iff. right. apply N.leb_gt. lia.
Qed.

Lemma lower_is_lowercase s : is_lowercase (PyStr.lower s) = true.
Proof.
  induction s as [|c r IH]; simpl; [reflexivity|].
  rewrite ascii_lower_not_upper, IH. reflexivity.
Qed.

Lemma lower_fixes_lowercase s : is_lowercase s = true -> PyStr.lower s = s.
Proof.
  induction s as [|c r IH]; simpl; [reflexivity|].
  intros [Hc Hr]%andb_true_iff. rewrite (IH Hr). f_equal.
  unfold PyStr.ascii_lower. unfold is_upper in Hc.
  apply negb_true_iff in Hc. rewrite Hc. reflexivity.
Qed.

Lemma lower_idempotent s : PyStr.lower (PyStr.lower s) = PyStr.lower s.
Proof. apply lower_fixes_lowercase, lower_is_lowercase. Qed.

Lemma lower_length s : String.length (PyStr.lower s) = String.length s.
Proof. induction s as [|c r IH]; simpl; congruence. Qed.

Lemma lower_app a b : PyStr.lower (a +:+ b) = PyStr.lower a +:+ PyStr.lower b.
Proof. induction a as [|c a IH]; simpl; [reflexivity|]. by rewrite IH. Qed.

Lemma string_length_app a b :
  String.length (a +:+ b) = (String.length a + String.length b)%nat.
Proof. induction a as [|c a IH]; simpl; [reflexivity|]. by rewrite IH. Qed.

Lemma space_not_upper c : is_space c = true -> is_upper c = false.
Proof.
  unfold is_space, is_upper. intros H.
  apply andb_false_iff.
  destruct (N.leb_spec 65 (N_of_ascii c)) as [H65|H65]; [|by left]. right.
  apply N.leb_gt.
  apply orb_true_iff in H as [H|H]; apply andb_true_iff in H as [_ H];
    apply N.leb_le in H; lia.
Qed.

Lemma lower_whitespace s : is_whitespace s = true -> PyStr.lower s = s.
Proof.
  induction s as [|c r IH]; simpl; [reflexivity|].
  intros [Hc Hr]%andb_true_iff. rewrite (IH Hr). f_equal.
  unfold PyStr.ascii_lower. apply space_not_upper in Hc. unfold is_upper in Hc.
  rewrite Hc. reflexivity.
Qed.

Lemma lower_padded pre s post :
  is_whitespace pre = true ->
  is_whitespace post = true ->
  PyStr.lower (pre +:+ s +:+ post) = pre +:+ PyStr.lower s +:+ post.
Proof.
  intros Hpre Hpost.
  by rewrite !lower_app, (lower_whitespace pre Hpre), (lower_whitespace post Hpost).
Qed.

Lemma item_token_lowercase item : is_lowercase (item_token item) = true.
Proof. apply lower_is_lowercase. Qed.

(** ** The text extractor, case by case *)

Section Extractor.

Variable w : world.
Variable caption : string.
Hypothesis Hkey : truthy_key (GROQ_API_KEY w) = true.
Hypothesis Hclient : groq_client w = None.

Lemma extract_raised e :
  groq_data w caption = inl e ->
  extract_objects_with_llm w caption
  = ([ECallGroq caption; EPrint (OutGroqError e)], Returned []).
Proof.
  intros Hg. unfold extract_objects_with_llm, llm_try_body. rewrite Hkey, Hclient, Hg. reflexivity.
Qed.

Lemma extract_list items :
  groq_data w caption = inr (JList items) ->
  extract_objects_with_llm w caption
  = ([ECallGroq caption], Returned (map item_token items)).
Proof.
  intros Hg. unfold extract_objects_with_llm, llm_try_body. rewrite Hkey, Hclient, Hg. reflexivity.
Qed.

Lemma extract_dict_list items x value :
  groq_data w caption = inr (JDict items) ->
  first_list_value items = x :: value ->
  extract_objects_with_llm w caption
  = ([ECallGroq caption], Returned (map item_token (x :: value))).
Proof.
  intros Hg Hf. unfold extract_objects_with_llm, llm_try_body. rewrite Hkey, Hclient, Hg.
  cbn. rewrite Hf. reflexivity.
Qed.

Lemma extract_dict_no_list items :
  groq_data w caption = inr (JDict items) ->
  first_list_value items = [] ->
  extract_objects_with_llm w caption
  = ([ECallGroq caption; EPrint (OutGroqError no_list_error)], Returned []).
Proof.
  intros Hg Hf. unfold extract_objects_with_llm, llm_try_body. rewrite Hkey, Hclient, Hg.
  cbn. rewrite Hf. reflexivity.
Qed.

Lemma extract_no_items data :
  groq_data w caption = inr data ->
  match data with JList _ | JDict _ => False | _ => True end ->
  extract_objects_with_llm w caption
  = ([ECallGroq caption; EPrint (OutGroqError (no_items_error data))], Returned []).
Proof.
  intros Hg Hd. unfold extract_objects_with_llm, llm_try_body. rewrite Hkey, Hclient, Hg.
  destruct data; try contradiction; reflexivity.
Qed.

(** With a credential the extractor always returns a list; its trace is
    the service call, followed by the logged error if there was one. *)
Lemma extract_returns :
  exists objs,
    extract_objects_with_llm w caption = ([ECallGroq caption], Returned objs)
    \/ exists e, objs = [] /\
         extract_objects_with_llm w caption
         = ([ECallGroq caption; EPrint (OutGroqError e)], Returned []).
Proof.
  destruct (groq_data w caption) as [e|data] eqn:Hg.
  - exists []. right. exists e. split; [reflexivity|]. by apply extract_raised.
  - destruct data.
    1-5: exists []; right; eexists; split; [reflexivity|];
         by apply extract_no_items.
    + eexists. left. by apply extract_list.
    + destruct (first_list_value items) as [|x value] eqn:Hf.
      * exists []. right. eexists. split; [reflexivity|].
        by eapply extract_dict_no_list.
      * eexists. left. by eapply extract_dict_list.
Qed.

End Extractor.

Lemma extract_no_key w caption :
  truthy_key (GROQ_API_KEY w) = false ->
  extract_objects_with_llm w caption = ([], Raised missing_key_error).
Proof. intros Hkey. unfold extract_objects_with_llm. rewrite Hkey. reflexivity. Qed.

Lemma extract_client_raised w caption e :
  truthy_key (GROQ_API_KEY w) = true ->
  groq_client w = Some e ->
  extract_objects_with_llm w caption = ([], Raised e).
Proof.
  intros Hkey Hc. unfold extract_objects_with_llm. rewrite Hkey, Hc. reflexivity.
Qed.

(** The three ways a call of the extractor can go. *)
Lemma extract_run_shape w caption :
  (exists e, extract_objects_with_llm w caption = ([], Raised e))
  \/ (exists objs,
        extract_objects_with_llm w caption = ([ECallGroq caption], Returned objs))
  \/ (exists e, extract_objects_with_llm w caption
                = ([ECallGroq caption; EPrint (OutGroqError e)], Returned [])).
Proof.
  destruct (truthy_key (GROQ_API_KEY w)) eqn:Hkey;
    [|left; eexists; by apply extract_no_key].
  destruct (groq_client w) as [e|] eqn:Hc;
    [left; eexists; by apply extract_client_raised|].
  right. destruct (extract_returns w caption Hkey Hc) as [objs [H|[e [_ H]]]]; eauto.
Qed.

Lemma first_list_value_spec items :
  first_list_value items = default [] (spec_candidate_list (JDict items)).
Proof.
  induction items as [|[key value] rest IH]; [reflexivity|].
  simpl in *. destruct value; simpl; try exact IH; reflexivity.
Qed.

(** ** The detector *)

Lemma collect_boxes (boxes : list string) (acc : gset string) :
  foldl (fun acc class_name => acc ∪ {[ PyStr.lower class_name ]}) acc boxes
  = acc ∪ list_to_set (map PyStr.lower boxes).
Proof.
  revert acc. induction boxes as [|b boxes IH]; intros acc; simpl.
  - set_solver.
  - rewrite IH. set_solver.
Qed.

Lemma collect_results (results : list (list string)) (acc : gset string) :
  foldl (fun detected_objects boxes =>
           foldl (fun acc class_name => acc ∪ {[ PyStr.lower class_name ]})
                 detected_objects boxes) acc results
  = acc ∪ list_to_set (map PyStr.lower (concat results)).
Proof.
  revert acc. induction results as [|boxes results IH]; intros acc; simpl.
  - set_solver.
  - rewrite IH, collect_boxes, map_app, list_to_set_app_L. set_solver.
Qed.

Lemma collect_class_names_spec results :
  collect_class_names results = list_to_set (map PyStr.lower (concat results)).
Proof. unfold collect_class_names. rewrite collect_results. set_solver. Qed.

Lemma detect_returns w image_path results :
  yolo_load w = None ->
  yolo_class_names w image_path = inr results ->
  detect_objects_with_yolo w image_path
  = ([EPrint OutLoadingModel; ELoadYolo; EPrint (OutAnalyzing image_path);
      ECallYolo image_path],
     Returned (elements (collect_class_names results))).
Proof.
  intros Hl Hy. unfold detect_objects_with_yolo. rewrite Hl, Hy. reflexivity.
Qed.

Lemma detect_trace_no_reconciliation w image_path :
  reconciliation_performed (trace (detect_objects_with_yolo w image_path)) = false.
Proof.
  unfold detect_objects_with_yolo.
  destruct (yolo_load w); [reflexivity|].
  destruct (yolo_class_names w image_path); reflexivity.
Qed.

Lemma extract_trace_quiet w caption :
  detection_invoked (trace (extract_objects_with_llm w caption)) = false
  /\ reconciliation_performed (trace (extract_objects_with_llm w caption)) = false.
Proof.
  destruct (extract_run_shape w caption) as [[e H]|[[objs H]|[e H]]];
    rewrite H; split; reflexivity.
Qed.

(** ** The orchestrator, path by path *)

Lemma verify_extraction_raised w image_path caption t e :
  extract_objects_with_llm w caption = (t, Raised e) ->
  verify_caption w image_path caption = (preamble image_path caption ++ t, Raised e).
Proof. intros H. unfold verify_caption. rewrite H. reflexivity. Qed.

Lemma verify_no_caption_objects w image_path caption t :
  extract_objects_with_llm w caption = (t, Returned []) ->
  verify_caption w image_path caption
  = (preamble image_path caption ++ t ++ [EPrint OutNoCaptionObjects], Returned tt).
Proof. intros H. unfold verify_caption. rewrite H. reflexivity. Qed.

Lemma verify_no_detections w image_path caption t c cs t' :
  extract_objects_with_llm w caption = (t, Returned (c :: cs)) ->
  detect_objects_with_yolo w image_path = (t', Returned []) ->
  verify_caption w image_path caption
  = (preamble image_path caption ++ t
       ++ [EPrint (OutLLMIdentified (c :: cs)); EPrint OutStep2]
       ++ t' ++ [EPrint OutNoDetections],
     Returned tt).
Proof.
  intros H H'. unfold verify_caption. rewrite H.
  cbn -[detect_objects_with_yolo]. rewrite H'. cbn.
  reflexivity.
Qed.

Lemma print_report_returns r :
  exists t, print_report r = (EPrint OutReportHeader :: t, Returned tt).
Proof.
  unfold print_report.
  destruct (decide (verified_objects r = ∅)), (decide (hallucinated_objects r = ∅));
    eexists; reflexivity.
Qed.

Lemma verify_completes w image_path caption t c cs t' d ds :
  extract_objects_with_llm w caption = (t, Returned (c :: cs)) ->
  detect_objects_with_yolo w image_path = (t', Returned (d :: ds)) ->
  verify_caption w image_path caption
  = (preamble image_path caption ++ t
       ++ [EPrint (OutLLMIdentified (c :: cs)); EPrint OutStep2]
       ++ t' ++ [EPrint (OutYoloDetected (d :: ds)); EPrint OutStep3]
       ++ trace (print_report (reconcile (c :: cs) (d :: ds))),
     Returned tt).
Proof.
  intros H H'. unfold verify_caption. rewrite H.
  cbn -[detect_objects_with_yolo print_report reconcile]. rewrite H'.
  destruct (print_report_returns (reconcile (c :: cs) (d :: ds))) as [tr Hr].
  cbn -[print_report reconcile]. rewrite Hr. reflexivity.
Qed.

(** The two guards are the only way around the later steps. *)
Lemma verify_invokes_detection w image_path caption t c cs :
  extract_objects_with_llm w caption = (t, Returned (c :: cs)) ->
  detection_invoked (trace (verify_caption w image_path caption)) = true.
Proof.
  intros H. unfold verify_caption. rewrite H.
  unfold detect_objects_with_yolo, detection_invoked.
  destruct (yolo_load w); cbn -[print_report reconcile].
  - rewrite existsb_app. simpl. apply orb_true_r.
  - destruct (yolo_class_names w image_path) as [e|results];
      cbn -[print_report reconcile collect_class_names].
    + rewrite existsb_app. simpl. apply orb_true_r.
    + destruct (elements (collect_class_names results)) as [|d ds];
        [|destruct (print_report_returns (reconcile (c :: cs) (d :: ds))) as [tr ->]];
        cbn; rewrite existsb_app; simpl; apply orb_true_r.
Qed.

Lemma verify_reconciles w image_path caption t c cs t' d ds :
  extract_objects_with_llm w caption = (t, Returned (c :: cs)) ->
  detect_objects_with_yolo w image_path = (t', Returned (d :: ds)) ->
  reconciliation_performed (trace (verify_caption w image_path caption)) = true.
Proof.
  intros H H'. rewrite (verify_completes _ _ _ _ _ _ _ _ _ H H').
  unfold reconciliation_performed. simpl.
  rewrite existsb_app. simpl. rewrite existsb_app. simpl.
  rewrite !orb_true_r. reflexivity.
Qed.

Lemma try_body_raised_caught w caption t e :
  truthy_key (GROQ_API_KEY w) = true ->
  groq_client w = None ->
  llm_try_body w caption = (t, Raised e) ->
  extract_objects_with_llm w caption = (t ++ [EPrint (OutGroqError e)], Returned []).
Proof.
  intros Hkey Hc Hb. unfold extract_objects_with_llm. rewrite Hkey, Hc, Hb. reflexivity.
Qed.

Lemma extract_accepted w caption data items :
  truthy_key (GROQ_API_KEY w) = true ->
  groq_client w = None ->
  groq_data w caption = inr data ->
  accepted_list data = Some items ->
  extract_objects_with_llm w caption
  = ([ECallGroq caption], Returned (map item_token items)).
Proof.
  intros Hkey Hc Hg Ha. destruct data; try discriminate; simpl in Ha.
  - injection Ha as <-. by apply extract_list.
  - destruct (first_list_value items0) as [|x value] eqn:Hf; [discriminate|].
    injection Ha as <-. by eapply extract_dict_list.
Qed.

Lemma extract_not_accepted w caption data :
  truthy_key (GROQ_API_KEY w) = true ->
  groq_client w = None ->
  groq_data w caption = inr data ->
  accepted_list data = None ->
  exists e, extract_objects_with_llm w caption
            = ([ECallGroq caption; EPrint (OutGroqError e)], Returned []).
Proof.
  intros Hkey Hc Hg Ha. destruct data; try discriminate;
    try (eexists; by apply extract_no_items).
  simpl in Ha. destruct (first_list_value items) eqn:Hf; [|discriminate].
  eexists. by eapply extract_dict_no_list.
Qed.

(** What the extractor returns is empty, or the tokens of the list it
    accepted. *)
Lemma extract_tokens w caption t objs :
  extract_objects_with_llm w caption = (t, Returned objs) ->
  objs = []
  \/ exists data items,
       groq_data w caption = inr data
       /\ accepted_list data = Some items
       /\ objs = map item_token items.
Proof.
  intros H. destruct (truthy_key (GROQ_API_KEY w)) eqn:Hkey;
    [|rewrite (extract_no_key w caption Hkey) in H; discriminate].
  destruct (groq_client w) as [e|] eqn:Hc;
    [rewrite (extract_client_raised w caption e Hkey Hc) in H; discriminate|].
  destruct (groq_data w caption) as [e|data] eqn:Hg.
  - rewrite (extract_raised w caption Hkey Hc e Hg) in H. injection H as _ <-. by left.
  - destruct (accepted_list data) as [items|] eqn:Ha.
    + rewrite (extract_accepted w caption data items Hkey Hc Hg Ha) in H.
      injection H as _ <-. right. by exists data, items.
    + destruct (extract_not_accepted w caption data Hkey Hc Hg Ha) as [e He].
      rewrite He in H. injection H as _ <-. by left.
Qed.

Lemma detect_tokens w image_path t dets :
  detect_objects_with_yolo w image_path = (t, Returned dets) ->
  exists results,
    yolo_class_names w image_path = inr results
    /\ dets = elements (collect_class_names results).
Proof.
  unfold detect_objects_with_yolo. destruct (yolo_load w); [discriminate|].
  destruct (yolo_class_names w image_path) as [e|results]; [discriminate|].
  intros H. exists results. split; [reflexivity|]. cbn in H. congruence.
Qed.

Lemma elem_of_collected results x :
  x ∈ elements (collect_class_names results)
  <-> exists class_name, class_name ∈ concat results /\ x = PyStr.lower class_name.
Proof.
  rewrite elem_of_elements, collect_class_names_spec, elem_of_list_to_set.
  rewrite list_elem_of_In, in_map_iff. split.
  - intros [n [<- Hn]]. exists n. by rewrite list_elem_of_In.
  - intros [n [Hn ->]]. exists n. by rewrite <- list_elem_of_In.
Qed.

(* ------------------------------------------------------------------ *)
(** * The claims *)

(** C1. The reconciliation step yields verified = C ∩ D and
    hallucinated = C ∖ D, where C and D are the sets of the caption
    objects and of the detected objects; so no object that is in D but
    not in C is in either output set, and an empty caption set gives two
    empty sets whatever D is. *)
Theorem C1_reconcile_is_intersection_and_difference
    (caption_objects image_objects : list string) :
  let C : gset string := list_to_set caption_objects in
  let D : gset string := list_to_set image_objects in
  let r := reconcile caption_objects image_objects in
  verified_objects r = C ∩ D
  /\ hallucinated_objects r = C ∖ D
  /\ (D ∖ C) ∩ (verified_objects r ∪ hallucinated_objects r) = ∅
  /\ reconcile [] image_objects = Report ∅ ∅.
Proof.
  cbn. repeat split.
  - set_solver.
  - unfold reconcile. f_equal; set_solver.
Qed.

(** C2, as the specification words it, fails: the code lower-cases and
    does not trim, so "Dog" and " dog " are two different object names,
    and the extractor returns them as two tokens. *)
Lemma C2_counterexample :
  item_token (JStr "Dog") <> item_token (JStr " dog ")
  /\ extract_objects_with_llm Examples.w_spaces "Dog and dog"
     = ([ECallGroq "Dog and dog"], Returned ["dog"; " dog "]).
Proof. split; [discriminate | reflexivity]. Qed.

(** C2, amended.  Object-name normalization is lower-casing only, with
    no trimming.  Whatever the text extractor returns is, element by
    element, the lower-cased [str()] of the list it accepted, and the
    image detector returns exactly the lower-cased class names of its
    boxes; nothing else is done to a token.  Lower-casing leaves
    surrounding whitespace (space, tab, newline and the other ASCII
    blanks) where it is, so a padded name and the bare name are always
    two different object names: "Dog" becomes "dog" while " dog " stays
    " dog ". *)
Theorem C2_normalization_is_lowercasing w caption image_path :
  (forall t objs,
     extract_objects_with_llm w caption = (t, Returned objs) ->
     objs = []
     \/ exists data items,
          groq_data w caption = inr data
          /\ accepted_list data = Some items
          /\ objs = map (fun item => PyStr.lower (py_str item)) items)
  /\ (forall t dets,
        detect_objects_with_yolo w image_path = (t, Returned dets) ->
        exists results,
          yolo_class_names w image_path = inr results
          /\ forall x, x ∈ dets <->
               exists class_name,
                 class_name ∈ concat results /\ x = PyStr.lower class_name)
  /\ (forall s, item_token (JStr s) = PyStr.lower s)
  /\ (forall pre s post,
        is_whitespace pre = true ->
        is_whitespace post = true ->
        PyStr.lower (pre +:+ s +:+ post) = pre +:+ PyStr.lower s +:+ post
        /\ (pre +:+ post <> EmptyString ->
            PyStr.lower (pre +:+ s +:+ post) <> PyStr.lower s))
  /\ item_token (JStr "Dog") = "dog"
  /\ item_token (JStr " dog ") = " dog ".
Proof.
  split; [|split; [|split; [|split; [|split]]]]; try reflexivity.
  - intros t objs He. exact (extract_tokens w caption t objs He).
  - intros t dets Hd. apply detect_tokens in Hd as [results [Hy ->]].
    exists results. split; [exact Hy|]. intros x. apply elem_of_collected.
  - intros pre s post Hpre Hpost.
    pose proof (lower_padded pre s post Hpre Hpost) as Hl. split; [exact Hl|].
    intros Hne Heq. rewrite Hl in Heq.
    apply (f_equal String.length) in Heq.
    rewrite !string_length_app in Heq.
    assert (String.length (pre +:+ post) = 0%nat) as H0
      by (rewrite string_length_app; lia).
    apply Hne. destruct (pre +:+ post); [reflexivity|discriminate].
Qed.

Lemma C2_witness :
  (["dog"; " dog "] = []
   \/ exists data items,
        groq_data Examples.w_spaces "Dog and dog" = inr data
        /\ accepted_list data = Some items
        /\ ["dog"; " dog "] = map (fun item => PyStr.lower (py_str item)) items)
  /\ (exists results,
        yolo_class_names Examples.w_spaces DEFAULT_IMAGE_PATH = inr results
        /\ forall x, x ∈ elements (collect_class_names Examples.two_dogs) <->
             exists class_name,
               class_name ∈ concat results /\ x = PyStr.lower class_name)
  /\ (PyStr.lower (" " +:+ "Dog" +:+ " ") = " " +:+ PyStr.lower "Dog" +:+ " "
      /\ (" " +:+ " " <> EmptyString ->
          PyStr.lower (" " +:+ "Dog" +:+ " ") <> PyStr.lower "Dog")).
Proof.
  destruct (C2_normalization_is_lowercasing Examples.w_spaces "Dog and dog"
              DEFAULT_IMAGE_PATH) as (Hx & Hd & _ & Hw & _).
  split; [|split].
  - apply (Hx [ECallGroq "Dog and dog"]). reflexivity.
  - apply (Hd [EPrint OutLoadingModel; ELoadYolo;
               EPrint (OutAnalyzing DEFAULT_IMAGE_PATH); ECallYolo DEFAULT_IMAGE_PATH]).
    reflexivity.
  - apply Hw; reflexivity.
Defined.

(** C3. When caption-object extraction returns an empty list, the
    orchestrator returns without invoking detection and without
    reconciling; when detection returns an empty list, it returns
    without reconciling. *)
Theorem C3_orchestrator_short_circuits w image_path caption t objs :
  extract_objects_with_llm w caption = (t, Returned objs) ->
  (objs = [] ->
     detection_invoked (trace (verify_caption w image_path caption)) = false
     /\ reconciliation_performed (trace (verify_caption w image_path caption)) = false
     /\ result (verify_caption w image_path caption) = Returned tt)
  /\ (forall t', detect_objects_with_yolo w image_path = (t', Returned []) ->
        reconciliation_performed (trace (verify_caption w image_path caption)) = false
        /\ result (verify_caption w image_path caption) = Returned tt).
Proof.
  intros He.
  destruct (extract_trace_quiet w caption) as [Hq1 Hq2]. rewrite He in Hq1, Hq2.
  simpl in Hq1, Hq2.
  assert (Hempty : objs = [] ->
     detection_invoked (trace (verify_caption w image_path caption)) = false
     /\ reconciliation_performed (trace (verify_caption w image_path caption)) = false
     /\ result (verify_caption w image_path caption) = Returned tt).
  { intros ->. rewrite (verify_no_caption_objects _ _ _ _ He). simpl.
    unfold detection_invoked, reconciliation_performed in *.
    rewrite !existsb_app. rewrite Hq1, Hq2. repeat split; reflexivity. }
  split; [exact Hempty|].
  intros t' Hd. destruct objs as [|c cs].
  - destruct (Hempty eq_refl) as (_ & ? & ?). by split.
  - rewrite (verify_no_detections _ _ _ _ _ _ _ He Hd).
    pose proof (detect_trace_no_reconciliation w image_path) as Hr.
    rewrite Hd in Hr. simpl in Hr. simpl.
    unfold reconciliation_performed in *.
    rewrite existsb_app. simpl. rewrite existsb_app. rewrite Hq2, Hr.
    split; reflexivity.
Qed.

Lemma C3_witness :
  (detection_invoked
     (trace (verify_caption Examples.w_offline DEFAULT_IMAGE_PATH "A cat")) = false
   /\ reconciliation_performed
        (trace (verify_caption Examples.w_offline DEFAULT_IMAGE_PATH "A cat")) = false
   /\ result (verify_caption Examples.w_offline DEFAULT_IMAGE_PATH "A cat") = Returned tt)
  /\ (reconciliation_performed
        (trace (verify_caption Examples.w_blind DEFAULT_IMAGE_PATH "A cat")) = false
      /\ result (verify_caption Examples.w_blind DEFAULT_IMAGE_PATH "A cat") = Returned tt).
Proof.
  split.
  - apply (proj1 (C3_orchestrator_short_circuits Examples.w_offline
                    DEFAULT_IMAGE_PATH "A cat"
                    [ECallGroq "A cat"; EPrint (OutGroqError Examples.connection_error)]
                    [] eq_refl)).
    reflexivity.
  - apply (proj2 (C3_orchestrator_short_circuits Examples.w_blind
                    DEFAULT_IMAGE_PATH "A cat" [ECallGroq "A cat"] ["cat"; "dog"] eq_refl)
                 [EPrint OutLoadingModel; ELoadYolo;
                  EPrint (OutAnalyzing DEFAULT_IMAGE_PATH); ECallYolo DEFAULT_IMAGE_PATH]).
    reflexivity.
Defined.

(** C4. The report of a reconciliation over C and D satisfies
    verified ∪ hallucinated = C, verified ∩ hallucinated = ∅ and
    verified ⊆ D. *)
Theorem C4_report_partitions_caption_set
    (caption_objects image_objects : list string) :
  let C : gset string := list_to_set caption_objects in
  let D : gset string := list_to_set image_objects in
  let r := reconcile caption_objects image_objects in
  verified_objects r ∪ hallucinated_objects r = C
  /\ verified_objects r ∩ hallucinated_objects r = ∅
  /\ verified_objects r ⊆ D.
Proof.
  cbn. repeat split.
  - apply set_eq. intros x. rewrite elem_of_union, elem_of_intersection, elem_of_difference.
    destruct (decide (x ∈ (list_to_set image_objects : gset string))); tauto.
  - set_solver.
  - set_solver.
Qed.

(** C5. Whatever JSON value the text service returns, the extractor
    takes its candidates from the list the specification names: a
    top-level list itself, or in an object the first value that is a
    list; its result is the tokens of that list.  When there is no such
    list the extraction fails: the error is logged and the result is
    empty.  (An empty candidate list gives the empty result as well.)
    For the wrapped reply [{"objects": ["Cat", "Dog"]}] the result is
    "cat", "dog". *)
Theorem C5_candidate_list_resolution w caption data :
  truthy_key (GROQ_API_KEY w) = true ->
  groq_client w = None ->
  groq_data w caption = inr data ->
  match spec_candidate_list data with
  | Some (x :: value) =>
      extract_objects_with_llm w caption
      = ([ECallGroq caption], Returned (map item_token (x :: value)))
  | Some [] => result (extract_objects_with_llm w caption) = Returned []
  | None =>
      exists e, extract_objects_with_llm w caption
                = ([ECallGroq caption; EPrint (OutGroqError e)], Returned [])
  end
  /\ (data = Examples.wrapped_reply ->
      extract_objects_with_llm w caption = ([ECallGroq caption], Returned ["cat"; "dog"])
      /\ (list_to_set ["cat"; "dog"] : gset string) = {[ "cat"; "dog" ]}).
Proof.
  intros Hkey Hc Hg. split.
  - destruct data; simpl.
    1-5: eexists; by apply extract_no_items.
    + destruct items as [|x value].
      * by rewrite (extract_list w caption Hkey Hc [] Hg).
      * exact (extract_list w caption Hkey Hc _ Hg).
    + pose proof (first_list_value_spec items) as Hf. simpl in Hf.
      destruct (find is_list (map snd items)) as [[]|]; simpl in Hf;
        try (eexists; by eapply extract_dict_no_list).
      destruct items0 as [|x value].
      * by rewrite (extract_dict_no_list w caption Hkey Hc items Hg Hf).
      * exact (extract_dict_list w caption Hkey Hc items x value Hg Hf).
  - intros ->. split; [|set_solver].
    exact (extract_dict_list w caption Hkey Hc _ (JStr "Cat") [JStr "Dog"] Hg eq_refl).
Qed.

Lemma C5_witness :
  extract_objects_with_llm Examples.w_wrapped "A cat and a dog"
  = ([ECallGroq "A cat and a dog"], Returned ["cat"; "dog"]).
Proof.
  exact (proj1 (C5_candidate_list_resolution Examples.w_wrapped "A cat and a dog"
                  Examples.wrapped_reply eq_refl eq_refl eq_refl)).
Defined.

(** C6, as the specification words it, fails: the client is constructed
    at line 24, before the [try] of line 25.  An error raised there,
    with the credential present, is not caught: it leaves the extractor
    and then the orchestrator, and the interpreter ends with status 1. *)
Lemma C6_counterexample :
  truthy_key (GROQ_API_KEY MoreExamples.w_client_fails) = true
  /\ extract_objects_with_llm MoreExamples.w_client_fails "A cat"
     = ([], Raised MoreExamples.bad_proxy)
  /\ verify_caption MoreExamples.w_client_fails DEFAULT_IMAGE_PATH "A cat"
     = (preamble DEFAULT_IMAGE_PATH "A cat", Raised MoreExamples.bad_proxy)
  /\ exit_status
       (result (verify_caption MoreExamples.w_client_fails DEFAULT_IMAGE_PATH "A cat"))
     = 1.
Proof. repeat split; reflexivity. Qed.

(** C6, amended.  An exception raised inside the [try] of the text
    extractor (sending the request, reading the reply, parsing it,
    looking for the list: lines 26-57) is caught there: it is logged,
    the extractor returns the empty list, and the orchestrator returns
    normally; a failed request is such an exception.  An exception
    raised while the client is constructed (line 24) is outside the
    [try]: it is not logged, and it leaves the extractor and the
    orchestrator uncaught, before any request is sent. *)
Theorem C6_extractor_errors_are_caught w image_path caption :
  truthy_key (GROQ_API_KEY w) = true ->
  (forall t e,
     groq_client w = None ->
     llm_try_body w caption = (t, Raised e) ->
     extract_objects_with_llm w caption = (t ++ [EPrint (OutGroqError e)], Returned [])
     /\ verify_caption w image_path caption
        = (preamble image_path caption ++ (t ++ [EPrint (OutGroqError e)])
             ++ [EPrint OutNoCaptionObjects],
           Returned tt))
  /\ (forall e,
        groq_data w caption = inl e ->
        llm_try_body w caption = ([ECallGroq caption], Raised e))
  /\ (forall e,
        groq_client w = Some e ->
        extract_objects_with_llm w caption = ([], Raised e)
        /\ verify_caption w image_path caption
           = (preamble image_path caption, Raised e)).
Proof.
  intros Hkey. split; [|split].
  - intros t e Hc Hb.
    pose proof (try_body_raised_caught w caption t e Hkey Hc Hb) as He.
    split; [exact He|]. by apply verify_no_caption_objects.
  - intros e Hg. unfold llm_try_body. rewrite Hg. reflexivity.
  - intros e Hc.
    pose proof (extract_client_raised w caption e Hkey Hc) as He.
    split; [exact He|].
    by rewrite (verify_extraction_raised _ _ _ _ _ He), app_nil_r.
Qed.

Lemma C6_witness :
  (extract_objects_with_llm Examples.w_offline "A cat"
   = ([ECallGroq "A cat"] ++ [EPrint (OutGroqError Examples.connection_error)],
      Returned [])
   /\ verify_caption Examples.w_offline DEFAULT_IMAGE_PATH "A cat"
      = (preamble DEFAULT_IMAGE_PATH "A cat"
           ++ ([ECallGroq "A cat"] ++ [EPrint (OutGroqError Examples.connection_error)])
           ++ [EPrint OutNoCaptionObjects],
         Returned tt))
  /\ llm_try_body Examples.w_offline "A cat"
     = ([ECallGroq "A cat"], Raised Examples.connection_error)
  /\ (extract_objects_with_llm MoreExamples.w_client_fails "A cat"
      = ([], Raised MoreExamples.bad_proxy)
      /\ verify_caption MoreExamples.w_client_fails DEFAULT_IMAGE_PATH "A cat"
         = (preamble DEFAULT_IMAGE_PATH "A cat", Raised MoreExamples.bad_proxy)).
Proof.
  split; [|split].
  - apply (proj1 (C6_extractor_errors_are_caught Examples.w_offline DEFAULT_IMAGE_PATH
                    "A cat" eq_refl)); reflexivity.
  - apply (proj1 (proj2 (C6_extractor_errors_are_caught Examples.w_offline
                           DEFAULT_IMAGE_PATH "A cat" eq_refl))).
    reflexivity.
  - apply (proj2 (proj2 (C6_extractor_errors_are_caught MoreExamples.w_client_fails
                           DEFAULT_IMAGE_PATH "A cat" eq_refl))).
    reflexivity.
Defined.

(** C7, as the specification words it, fails.  Without a credential and
    with an image path that does not exist the script ends normally,
    with exit status 0 and no configuration error; with an image that
    exists the error is raised by the extraction call itself, after the
    pipeline has announced its first step. *)
Lemma C7_counterexample :
  truthy_key (GROQ_API_KEY Examples.w_no_key) = false
  /\ script Examples.w_no_key Examples.missing_image_args
     = ([EPrint (OutImageNotFound "no/such.jpg")], Returned tt)
  /\ exit_status (result (script Examples.w_no_key Examples.missing_image_args)) = 0
  /\ script Examples.w_no_key Examples.sample_args
     = (preamble DEFAULT_IMAGE_PATH "A cat and a dog", Raised missing_key_error)
  /\ extract_objects_with_llm Examples.w_no_key "A cat and a dog"
     = ([], Raised missing_key_error).
Proof. repeat split; reflexivity. Qed.

(** C7, amended.  A missing credential is checked on entry to every
    extraction call: the call raises an error before the text service is
    contacted, the error is not turned into an empty result, and it
    leaves the orchestrator uncaught, in its first step, before
    detection and reconciliation; the interpreter then ends with status
    1. *)
Theorem C7_missing_credential_raised_by_extractor w image_path caption :
  truthy_key (GROQ_API_KEY w) = false ->
  extract_objects_with_llm w caption = ([], Raised missing_key_error)
  /\ verify_caption w image_path caption
     = (preamble image_path caption, Raised missing_key_error)
  /\ exit_status (result (verify_caption w image_path caption)) = 1.
Proof.
  intros Hkey.
  assert (He : extract_objects_with_llm w caption = ([], Raised missing_key_error)).
  { unfold extract_objects_with_llm. rewrite Hkey. reflexivity. }
  split; [exact He|].
  rewrite (verify_extraction_raised _ _ _ _ _ He), app_nil_r. split; reflexivity.
Qed.

Lemma C7_witness :
  extract_objects_with_llm Examples.w_no_key "A cat" = ([], Raised missing_key_error)
  /\ verify_caption Examples.w_no_key DEFAULT_IMAGE_PATH "A cat"
     = (preamble DEFAULT_IMAGE_PATH "A cat", Raised missing_key_error)
  /\ exit_status (result (verify_caption Examples.w_no_key DEFAULT_IMAGE_PATH "A cat")) = 1.
Proof.
  apply (C7_missing_credential_raised_by_extractor Examples.w_no_key
           DEFAULT_IMAGE_PATH "A cat"). reflexivity.
Defined.

(** C8.  What the code does for an image path that does not exist: once
    [setup_environment] has returned, [main] prints the error line and
    returns, and the interpreter ends with exit status 0. *)
Theorem C8_missing_image_exit_status w args :
  result (setup_environment w) = Returned tt ->
  path_exists (after_setup w) (image_of args) = false ->
  script w args
  = (trace (setup_environment w) ++ [EPrint (OutImageNotFound (image_of args))],
     Returned tt)
  /\ exit_status (result (script w args)) = 0.
Proof.
  intros Hs Hp.
  assert (H : script w args
    = (trace (setup_environment w) ++ [EPrint (OutImageNotFound (image_of args))],
       Returned tt)).
  { unfold script. destruct (setup_environment w) as [ts os]. simpl in Hs. subst os.
    unfold main. rewrite Hp. reflexivity. }
  split; [exact H|]. rewrite H. reflexivity.
Qed.

Lemma C8_witness :
  script Examples.w_wrapped Examples.missing_image_args
  = ([EPrint (OutImageNotFound "no/such.jpg")], Returned tt)
  /\ exit_status (result (script Examples.w_wrapped Examples.missing_image_args)) = 0.
Proof.
  apply (C8_missing_image_exit_status Examples.w_wrapped Examples.missing_image_args);
    reflexivity.
Defined.

(** C9, as the specification words it, fails for the text extractor: it
    returns a list, and for the reply ["Dog", "dog"] that list holds
    "dog" twice. *)
Lemma C9_counterexample :
  extract_objects_with_llm Examples.w_repeat "Dog, dog"
  = ([ECallGroq "Dog, dog"], Returned ["dog"; "dog"])
  /\ ~ NoDup ["dog"; "dog"].
Proof.
  split; [reflexivity|].
  intros H. apply NoDup_cons in H as [H _]. apply H. left.
Qed.

(** C9, amended.  For a reply it accepts, the text extractor returns a
    list with one token per element of the service's list, in order,
    duplicates included; the orchestrator turns that list into a set
    before comparing, so repeated tokens do not change the report.  The
    detector's output has no duplicates and holds exactly the
    lower-cased class labels of the detections. *)
Theorem C9_uniqueness_by_set_conversion
    w caption image_path data items results :
  truthy_key (GROQ_API_KEY w) = true ->
  groq_client w = None ->
  groq_data w caption = inr data ->
  accepted_list data = Some items ->
  yolo_load w = None ->
  yolo_class_names w image_path = inr results ->
  result (extract_objects_with_llm w caption) = Returned (map item_token items)
  /\ (forall image_objects,
        reconcile (map item_token items) image_objects
        = reconcile (elements (list_to_set (map item_token items) : gset string))
                    image_objects)
  /\ exists dets,
       result (detect_objects_with_yolo w image_path) = Returned dets
       /\ NoDup dets
       /\ forall x, x ∈ dets <->
            exists class_name, class_name ∈ concat results /\ x = PyStr.lower class_name.
Proof.
  intros Hkey Hc Hg Ha Hl Hy. split; [|split].
  - by rewrite (extract_accepted w caption data items Hkey Hc Hg Ha).
  - intros image_objects. unfold reconcile. by rewrite list_to_set_elements_L.
  - exists (elements (collect_class_names results)). split; [|split].
    + by rewrite (detect_returns w image_path results Hl Hy).
    + apply NoDup_elements.
    + apply elem_of_collected.
Qed.

Lemma C9_witness :
  result (extract_objects_with_llm Examples.w_repeat "Dog, dog")
  = Returned (map item_token [JStr "Dog"; JStr "dog"])
  /\ (forall image_objects,
        reconcile (map item_token [JStr "Dog"; JStr "dog"]) image_objects
        = reconcile
            (elements (list_to_set (map item_token [JStr "Dog"; JStr "dog"]) : gset string))
            image_objects)
  /\ exists dets,
       result (detect_objects_with_yolo Examples.w_repeat DEFAULT_IMAGE_PATH) = Returned dets
       /\ NoDup dets
       /\ forall x, x ∈ dets <->
            exists class_name,
              class_name ∈ concat Examples.two_dogs /\ x = PyStr.lower class_name.
Proof.
  apply (C9_uniqueness_by_set_conversion Examples.w_repeat "Dog, dog" DEFAULT_IMAGE_PATH
           (JList [JStr "Dog"; JStr "dog"])); reflexivity.
Defined.

(** C10. For a list the text extractor accepts, every element, of
    whatever JSON type, is passed through [str()] and then lower-cased:
    the extraction does not fail, and the result holds, in order, the
    lower-case rendering of each element. *)
Theorem C10_elements_are_stringified w caption data items :
  truthy_key (GROQ_API_KEY w) = true ->
  groq_client w = None ->
  groq_data w caption = inr data ->
  accepted_list data = Some items ->
  extract_objects_with_llm w caption
  = ([ECallGroq caption], Returned (map (fun item => PyStr.lower (py_str item)) items))
  /\ Forall (fun o => is_lowercase o = true)
            (map (fun item => PyStr.lower (py_str item)) items).
Proof.
  intros Hkey Hc Hg Ha. split.
  - exact (extract_accepted w caption data items Hkey Hc Hg Ha).
  - apply Forall_forall. intros o [item [<- _]]%list_elem_of_In%in_map_iff.
    apply lower_is_lowercase.
Qed.

Lemma C10_witness :
  extract_objects_with_llm Examples.w_mixed "A cat"
  = ([ECallGroq "A cat"], Returned ["cat"; "3"; "-7"; "true"; "none"; "2.5"; "['a', 'b']"; "{'k': 'v'}"])
  /\ Forall (fun o => is_lowercase o = true)
            ["cat"; "3"; "-7"; "true"; "none"; "2.5"; "['a', 'b']"; "{'k': 'v'}"].
Proof.
  apply (C10_elements_are_stringified Examples.w_mixed "A cat" Examples.mixed_reply
           Examples.mixed_items); reflexivity.
Defined.

(* ------------------------------------------------------------------ *)
(** * Further properties of the code *)

(** ** Runs *)

Lemma bind_returned {A B} (m : Run A) (k : A -> Run B) t a :
  m = (t, Returned a) -> m ≫= k = (t ++ trace (k a), result (k a)).
Proof. intros ->. cbn. destruct (k a). reflexivity. Qed.

Lemma bind_raised {A B} (m : Run A) (k : A -> Run B) t e :
  m = (t, Raised e) -> m ≫= k = (t, Raised e).
Proof. intros ->. reflexivity. Qed.

Lemma groq_calls_app t1 t2 : groq_calls (t1 ++ t2) = (groq_calls t1 + groq_calls t2)%nat.
Proof. unfold groq_calls. by rewrite List.filter_app, length_app. Qed.

Lemma yolo_calls_app t1 t2 : yolo_calls (t1 ++ t2) = (yolo_calls t1 + yolo_calls t2)%nat.
Proof. unfold yolo_calls. by rewrite List.filter_app, length_app. Qed.

Lemma print_report_lines (caption_objects image_objects : list string) :
  print_report (reconcile caption_objects image_objects)
  = (let C : gset string := list_to_set caption_objects in
     let D : gset string := list_to_set image_objects in
     [EPrint OutReportHeader;
      EPrint (if decide (C ## D) then OutNoneVerified else OutVerified (C ∩ D));
      EPrint (if decide (C ⊆ D) then OutNoHallucinations else OutHallucinations (C ∖ D));
      EPrint OutReportFooter],
     Returned tt).
Proof.
  unfold print_report, reconcile. cbn -[decide].
  set (C := list_to_set caption_objects : gset string).
  set (D := list_to_set image_objects : gset string).
  destruct (decide (C ∩ D = ∅)) as [Hv|Hv], (decide (C ## D)) as [Hv'|Hv'];
    try (exfalso; set_solver);
  destruct (decide (C ∖ D = ∅)) as [Hh|Hh], (decide (C ⊆ D)) as [Hh'|Hh'];
    try reflexivity; exfalso.
  all: try (apply Hh'; intros x Hx; destruct (decide (x ∈ D)); [done|set_solver]).
  all: set_solver.
Qed.

Lemma verify_detection_raised w image_path caption t c cs t' e :
  extract_objects_with_llm w caption = (t, Returned (c :: cs)) ->
  detect_objects_with_yolo w image_path = (t', Raised e) ->
  verify_caption w image_path caption
  = (preamble image_path caption ++ t
       ++ [EPrint (OutLLMIdentified (c :: cs)); EPrint OutStep2] ++ t',
     Raised e).
Proof.
  intros H H'. unfold verify_caption. rewrite H.
  cbn -[detect_objects_with_yolo]. rewrite H'. reflexivity.
Qed.

Lemma detect_inference_raised w image_path e :
  yolo_load w = None ->
  yolo_class_names w image_path = inl e ->
  detect_objects_with_yolo w image_path
  = ([EPrint OutLoadingModel; ELoadYolo; EPrint (OutAnalyzing image_path);
      ECallYolo image_path], Raised e).
Proof.
  intros Hl Hy. unfold detect_objects_with_yolo. rewrite Hl, Hy. reflexivity.
Qed.

Lemma script_after_setup w args :
  result (setup_environment w) = Returned tt ->
  script w args
  = (trace (setup_environment w) ++ trace (main (after_setup w) args),
     result (main (after_setup w) args)).
Proof.
  intros Hs. unfold script. destruct (setup_environment w) as [ts os].
  simpl in Hs. subst os.
  exact (bind_returned _ (fun _ => main (after_setup w) args) ts tt eq_refl).
Qed.

Lemma collected_empty results :
  elements (collect_class_names results) = [] <-> concat results = [].
Proof.
  rewrite collect_class_names_spec. split.
  - intros H. destruct (concat results) as [|n ns]; [reflexivity|].
    apply elements_empty_inv in H. exfalso.
    assert (PyStr.lower n ∈ (∅ : gset string)); [|set_solver].
    apply leibniz_equiv in H. rewrite <- H. set_solver.
  - intros ->. simpl. apply elements_empty.
Qed.

Lemma detect_run_shape w image_path :
  (exists e, detect_objects_with_yolo w image_path
             = ([EPrint OutLoadingModel; ELoadYolo], Raised e))
  \/ (exists e, detect_objects_with_yolo w image_path
                = ([EPrint OutLoadingModel; ELoadYolo; EPrint (OutAnalyzing image_path);
                    ECallYolo image_path], Raised e))
  \/ (exists dets, detect_objects_with_yolo w image_path
                   = ([EPrint OutLoadingModel; ELoadYolo; EPrint (OutAnalyzing image_path);
                       ECallYolo image_path], Returned dets)).
Proof.
  unfold detect_objects_with_yolo.
  destruct (yolo_load w) as [e|]; [left; by exists e|]. right.
  destruct (yolo_class_names w image_path) as [e|results];
    [left; by exists e | right; eexists; reflexivity].
Qed.

(** ** The detector and the orchestrator *)

(** X1. The detector has no handler of its own: an exception raised
    while the model is loaded or run leaves [detect_objects_with_yolo]
    and then [verify_caption] uncaught; nothing is compared or reported
    and the interpreter ends with status 1. *)
Theorem detector_errors_propagate w image_path caption t c cs t' e :
  extract_objects_with_llm w caption = (t, Returned (c :: cs)) ->
  detect_objects_with_yolo w image_path = (t', Raised e) ->
  verify_caption w image_path caption
  = (preamble image_path caption ++ t
       ++ [EPrint (OutLLMIdentified (c :: cs)); EPrint OutStep2] ++ t',
     Raised e)
  /\ reconciliation_performed (trace (verify_caption w image_path caption)) = false
  /\ exit_status (result (verify_caption w image_path caption)) = 1.
Proof.
  intros He Hd. rewrite (verify_detection_raised _ _ _ _ _ _ _ _ He Hd).
  split; [reflexivity|]. split; [|reflexivity].
  destruct (extract_trace_quiet w caption) as [_ Hq]. rewrite He in Hq.
  pose proof (detect_trace_no_reconciliation w image_path) as Hr. rewrite Hd in Hr.
  simpl in Hq, Hr. simpl. unfold reconciliation_performed in *.
  rewrite existsb_app. simpl. rewrite Hq, Hr. reflexivity.
Qed.

Lemma detector_errors_propagate_witness :
  verify_caption MoreExamples.w_detector_crash DEFAULT_IMAGE_PATH "A cat"
  = (preamble DEFAULT_IMAGE_PATH "A cat" ++ [ECallGroq "A cat"]
       ++ [EPrint (OutLLMIdentified ["cat"; "dog"]); EPrint OutStep2]
       ++ [EPrint OutLoadingModel; ELoadYolo; EPrint (OutAnalyzing DEFAULT_IMAGE_PATH);
           ECallYolo DEFAULT_IMAGE_PATH],
     Raised MoreExamples.out_of_memory)
  /\ reconciliation_performed
       (trace (verify_caption MoreExamples.w_detector_crash DEFAULT_IMAGE_PATH "A cat"))
     = false
  /\ exit_status
       (result (verify_caption MoreExamples.w_detector_crash DEFAULT_IMAGE_PATH "A cat"))
     = 1.
Proof.
  apply (detector_errors_propagate MoreExamples.w_detector_crash DEFAULT_IMAGE_PATH
           "A cat" [ECallGroq "A cat"] "cat" ["dog"]); reflexivity.
Defined.

(** X2. With a credential, a client that is constructed, a model that
    loads and an inference that answers, [verify_caption] returns
    normally whatever the text service does. *)
Theorem verify_caption_returns w image_path caption results :
  truthy_key (GROQ_API_KEY w) = true ->
  groq_client w = None ->
  yolo_load w = None ->
  yolo_class_names w image_path = inr results ->
  result (verify_caption w image_path caption) = Returned tt.
Proof.
  intros Hkey Hc Hl Hy.
  pose proof (detect_returns w image_path results Hl Hy) as Hd.
  assert (Hx : exists t objs, extract_objects_with_llm w caption = (t, Returned objs)).
  { destruct (extract_returns w caption Hkey Hc) as [objs [H|[e [-> H]]]]; eauto. }
  destruct Hx as (t & [|c cs] & He).
  - by rewrite (verify_no_caption_objects _ _ _ _ He).
  - destruct (elements (collect_class_names results)) as [|d ds] eqn:E.
    + by rewrite (verify_no_detections _ _ _ _ _ _ _ He Hd).
    + by rewrite (verify_completes _ _ _ _ _ _ _ _ _ He Hd).
Qed.

Lemma verify_caption_returns_witness :
  result (verify_caption Examples.w_offline DEFAULT_IMAGE_PATH "A cat") = Returned tt.
Proof.
  apply (verify_caption_returns Examples.w_offline DEFAULT_IMAGE_PATH "A cat"
           Examples.two_dogs); reflexivity.
Defined.

(** X3. One run of [verify_caption] calls [chat.completions.create]
    (line 26) exactly once when the credential is there and the client
    is constructed, and not at all otherwise; it runs the model on the
    image (line 72) at most once.  How many HTTP requests the client
    library makes inside one such call is its own affair. *)
Theorem verify_caption_service_calls w image_path caption :
  groq_calls (trace (verify_caption w image_path caption))
  = match truthy_key (GROQ_API_KEY w), groq_client w with
    | true, None => 1%nat
    | _, _ => 0%nat
    end
  /\ (yolo_calls (trace (verify_caption w image_path caption)) <= 1)%nat.
Proof.
  set (expected := match truthy_key (GROQ_API_KEY w), groq_client w with
                   | true, None => 1%nat
                   | _, _ => 0%nat
                   end).
  assert (Hx : (exists e, extract_objects_with_llm w caption = ([], Raised e)
                          /\ expected = 0%nat)
               \/ (exists t objs,
                     extract_objects_with_llm w caption = (t, Returned objs)
                     /\ groq_calls t = 1%nat /\ yolo_calls t = 0%nat
                     /\ expected = 1%nat)).
  { unfold expected. destruct (truthy_key (GROQ_API_KEY w)) eqn:Hkey.
    - destruct (groq_client w) as [e|] eqn:Hc.
      + left. exists e. split; [by apply extract_client_raised|reflexivity].
      + right. destruct (extract_returns w caption Hkey Hc) as [objs [H|[e [-> H]]]];
          eexists _, _; (split; [exact H|repeat split; reflexivity]).
    - left. exists missing_key_error. split; [by apply extract_no_key|].
      by destruct (groq_client w). }
  clearbody expected.
  destruct Hx as [(e & He & ->)|(t & objs & He & Hg & Hyc & ->)].
  { rewrite (verify_extraction_raised _ _ _ _ _ He). split; [reflexivity|]. cbn. lia. }
  destruct objs as [|c cs].
  - rewrite (verify_no_caption_objects _ _ _ _ He). unfold trace, fst.
    rewrite !groq_calls_app, !yolo_calls_app, Hg, Hyc. split; [reflexivity|]. cbn. lia.
  - destruct (detect_run_shape w image_path) as [[e Hd]|[[e Hd]|[[|d ds] Hd]]].
    + rewrite (verify_detection_raised _ _ _ _ _ _ _ _ He Hd). unfold trace, fst.
      rewrite !groq_calls_app, !yolo_calls_app, Hg, Hyc. split; [reflexivity|]. cbn. lia.
    + rewrite (verify_detection_raised _ _ _ _ _ _ _ _ He Hd). unfold trace, fst.
      rewrite !groq_calls_app, !yolo_calls_app, Hg, Hyc. split; [reflexivity|]. cbn. lia.
    + rewrite (verify_no_detections _ _ _ _ _ _ _ He Hd). unfold trace, fst.
      rewrite !groq_calls_app, !yolo_calls_app, Hg, Hyc. split; [reflexivity|]. cbn. lia.
    + rewrite (verify_completes _ _ _ _ _ _ _ _ _ He Hd), print_report_lines.
      unfold trace, fst.
      rewrite !groq_calls_app, !yolo_calls_app, Hg, Hyc. split; [reflexivity|]. cbn. lia.
Qed.

(** X4. The detector returns an empty list exactly when the model
    reports no box at all, in any of its results. *)
Theorem detector_empty_iff_no_boxes w image_path results :
  yolo_load w = None ->
  yolo_class_names w image_path = inr results ->
  result (detect_objects_with_yolo w image_path) = Returned [] <-> concat results = [].
Proof.
  intros Hl Hy. rewrite (detect_returns w image_path results Hl Hy). simpl.
  rewrite <- collected_empty. split; [by intros [= ->]|by intros ->].
Qed.

Lemma detector_empty_iff_no_boxes_witness :
  result (detect_objects_with_yolo Examples.w_blind DEFAULT_IMAGE_PATH) = Returned []
  <-> concat (@nil (list string)) = [].
Proof.
  apply (detector_empty_iff_no_boxes Examples.w_blind DEFAULT_IMAGE_PATH []); reflexivity.
Defined.

(** X5. Only the distinct class names count for the detector: two
    answers of the model that name the same classes, in whatever order,
    grouping and number, give the same set. *)
Theorem detector_ignores_order_and_counts (results results' : list (list string)) :
  (forall class_name, class_name ∈ concat results <-> class_name ∈ concat results') ->
  collect_class_names results = collect_class_names results'.
Proof.
  intros H. rewrite !collect_class_names_spec. apply set_eq. intros x.
  rewrite !elem_of_list_to_set, !list_elem_of_In, !in_map_iff.
  split; intros [n [<- Hn]]; exists n; (split; [reflexivity|]);
    apply list_elem_of_In, H, list_elem_of_In, Hn.
Qed.

Lemma detector_ignores_order_and_counts_witness :
  collect_class_names [["Dog"; "dog"]; ["Couch"]]
  = collect_class_names [["Couch"; "dog"; "Dog"; "Couch"]].
Proof.
  apply (detector_ignores_order_and_counts
           [["Dog"; "dog"]; ["Couch"]] [["Couch"; "dog"; "Dog"; "Couch"]]).
  intros n. simpl. set_solver.
Defined.

(** ** The report *)

(** X6. The report has four lines.  The line of verified objects shows
    the intersection, and is replaced by the "none verified" line exactly
    when no caption object was detected; the line of hallucinations
    shows the difference, and is replaced by the "no hallucinations" line
    exactly when every caption object was detected. *)
Theorem report_lines_follow_the_sets (caption_objects image_objects : list string) :
  let C : gset string := list_to_set caption_objects in
  let D : gset string := list_to_set image_objects in
  print_report (reconcile caption_objects image_objects)
  = ([EPrint OutReportHeader;
      EPrint (if decide (C ## D) then OutNoneVerified else OutVerified (C ∩ D));
      EPrint (if decide (C ⊆ D) then OutNoHallucinations else OutHallucinations (C ∖ D));
      EPrint OutReportFooter],
     Returned tt).
Proof. apply print_report_lines. Qed.

(** X7. More detections never make a caption look worse: when the
    detected set grows, the verified set can only grow and the
    hallucinated set can only shrink. *)
Theorem reconcile_monotone_in_detections
    (caption_objects image_objects image_objects' : list string) :
  (list_to_set image_objects : gset string) ⊆ list_to_set image_objects' ->
  verified_objects (reconcile caption_objects image_objects)
    ⊆ verified_objects (reconcile caption_objects image_objects')
  /\ hallucinated_objects (reconcile caption_objects image_objects')
       ⊆ hallucinated_objects (reconcile caption_objects image_objects).
Proof. intros H. unfold reconcile. simpl. set_solver. Qed.

Lemma reconcile_monotone_in_detections_witness :
  verified_objects (reconcile ["cat"; "dog"] ["dog"])
    ⊆ verified_objects (reconcile ["cat"; "dog"] ["cat"; "dog"; "table"])
  /\ hallucinated_objects (reconcile ["cat"; "dog"] ["cat"; "dog"; "table"])
       ⊆ hallucinated_objects (reconcile ["cat"; "dog"] ["dog"]).
Proof.
  apply (reconcile_monotone_in_detections ["cat"; "dog"] ["dog"] ["cat"; "dog"; "table"]).
  set_solver.
Defined.

(** X8. From the service's list and the model's boxes to the report:
    a name is verified exactly when it is the lower-cased text of a list
    element and also the lower-cased name of a detected class, and it is
    hallucinated exactly when it is the first and not the second.  The
    comparison is therefore blind to the case of either side, and to
    nothing else. *)
Theorem report_membership (items : list json) (results : list (list string)) (x : string) :
  let r := reconcile (map item_token items) (elements (collect_class_names results)) in
  let mentioned := exists item, item ∈ items /\ x = PyStr.lower (py_str item) in
  let detected := exists class_name,
                    class_name ∈ concat results /\ x = PyStr.lower class_name in
  (x ∈ verified_objects r <-> mentioned /\ detected)
  /\ (x ∈ hallucinated_objects r <-> mentioned /\ ~ detected).
Proof.
  cbn zeta. unfold reconcile. cbn [verified_objects hallucinated_objects].
  rewrite elem_of_intersection, elem_of_difference, !elem_of_list_to_set.
  rewrite elem_of_collected.
  assert (Hm : x ∈ map item_token items
               <-> exists item, item ∈ items /\ x = PyStr.lower (py_str item)).
  { rewrite list_elem_of_In, in_map_iff. split.
    - intros [item [<- Hi]]. exists item. by rewrite list_elem_of_In.
    - intros [item [Hi ->]]. exists item. by rewrite <- list_elem_of_In. }
  rewrite Hm. split; reflexivity.
Qed.

(** ** The text extractor *)

(** X9. In an object the scan stops at the first value that is a list:
    the values before it are skipped, the values after it are never
    looked at.  If that first list is empty the extraction fails with
    the logged format error, even when a later value is a list with
    elements. *)
Theorem first_list_value_wins w caption before key value after :
  truthy_key (GROQ_API_KEY w) = true ->
  groq_client w = None ->
  groq_data w caption = inr (JDict (before ++ (key, JList value) :: after)) ->
  Forall (fun kv => is_list (snd kv) = false) before ->
  extract_objects_with_llm w caption
  = (match value with
     | [] => [ECallGroq caption; EPrint (OutGroqError no_list_error)]
     | _ => [ECallGroq caption]
     end,
     Returned (map item_token value)).
Proof.
  intros Hkey Hc Hg Hb.
  assert (Hf : first_list_value (before ++ (key, JList value) :: after) = value).
  { clear Hg. induction Hb as [|[k v] rest Hv _ IH]; [reflexivity|].
    simpl in *. destruct v; try discriminate; exact IH. }
  destruct value as [|x value].
  - exact (extract_dict_no_list w caption Hkey Hc _ Hg Hf).
  - exact (extract_dict_list w caption Hkey Hc _ x value Hg Hf).
Qed.

Lemma first_list_value_wins_witness :
  extract_objects_with_llm MoreExamples.w_hidden_list "A cat"
  = ([ECallGroq "A cat"; EPrint (OutGroqError no_list_error)], Returned []).
Proof.
  apply (first_list_value_wins MoreExamples.w_hidden_list "A cat"
           [("note", JStr "ok")] "objects" [] [("more", JList [JStr "Cat"])]).
  - reflexivity.
  - reflexivity.
  - reflexivity.
  - repeat constructor.
Defined.

(** X10. The extractor returns an empty list without logging an error
    in one case only: the service answered with an empty top-level
    list. *)
Theorem silent_empty_result_iff_empty_list w caption data :
  truthy_key (GROQ_API_KEY w) = true ->
  groq_client w = None ->
  groq_data w caption = inr data ->
  extract_objects_with_llm w caption = ([ECallGroq caption], Returned [])
  <-> data = JList [].
Proof.
  intros Hkey Hc Hg. split.
  - intros H. destruct data.
    1-5: rewrite (extract_no_items w caption Hkey Hc _ Hg I) in H; discriminate.
    + rewrite (extract_list w caption Hkey Hc _ Hg) in H.
      destruct items; [reflexivity|discriminate].
    + destruct (first_list_value items) as [|x value] eqn:Hf.
      * rewrite (extract_dict_no_list w caption Hkey Hc _ Hg Hf) in H. discriminate.
      * rewrite (extract_dict_list w caption Hkey Hc _ x value Hg Hf) in H. discriminate.
  - intros ->. exact (extract_list w caption Hkey Hc [] Hg).
Qed.

Lemma silent_empty_result_iff_empty_list_witness :
  extract_objects_with_llm MoreExamples.w_empty_list "A cat"
  = ([ECallGroq "A cat"], Returned [])
  <-> JList [] = JList [].
Proof.
  apply (silent_empty_result_iff_empty_list MoreExamples.w_empty_list "A cat" (JList []));
    reflexivity.
Defined.

(** X11. On ASCII text normalizing is stable: a token that went through
    [str(item).lower()] is unchanged by a second pass, a lower-cased
    class name likewise, and the result is ASCII again.  On such text
    lower-casing keeps the length and works character by character, so
    the lower-cased concatenation is the concatenation of the
    lower-cased parts. *)
Theorem normalization_is_stable (item : json) (class_name a b : string) :
  is_ascii (py_str item) = true ->
  is_ascii class_name = true ->
  is_ascii a = true ->
  is_ascii b = true ->
  item_token (JStr (item_token item)) = item_token item
  /\ is_ascii (item_token item) = true
  /\ PyStr.lower (PyStr.lower class_name) = PyStr.lower class_name
  /\ String.length (PyStr.lower a) = String.length a
  /\ PyStr.lower (a +:+ b) = PyStr.lower a +:+ PyStr.lower b.
Proof.
  intros Hi _ _ _. repeat split.
  - unfold item_token at 1. simpl. apply lower_idempotent.
  - unfold item_token. revert Hi. generalize (py_str item) as s.
    induction s as [|c r IH]; simpl; [reflexivity|].
    intros [Hc Hr]%andb_true_iff. rewrite (IH Hr), andb_true_r.
    unfold PyStr.ascii_lower.
    destruct ((65 <=? N_of_ascii c) && (N_of_ascii c <=? 90))%N eqn:E; [|exact Hc].
    apply andb_true_iff in E as [_ E]. apply N.leb_le in E.
    rewrite N_ascii_embedding by lia. apply N.ltb_lt. lia.
  - apply lower_idempotent.
  - apply lower_length.
  - apply lower_app.
Qed.

Lemma normalization_is_stable_witness :
  item_token (JStr (item_token (JStr " Dog "))) = item_token (JStr " Dog ")
  /\ is_ascii (item_token (JStr " Dog ")) = true
  /\ PyStr.lower (PyStr.lower "Dining Table") = PyStr.lower "Dining Table"
  /\ String.length (PyStr.lower " Dog") = String.length " Dog"
  /\ PyStr.lower (" Dog" +:+ "S ") = PyStr.lower " Dog" +:+ PyStr.lower "S ".
Proof.
  apply (normalization_is_stable (JStr " Dog ") "Dining Table" " Dog" "S ");
    reflexivity.
Defined.

(** ** The script *)

Lemma verify_caption_ends w image_path caption :
  result (verify_caption w image_path caption) = Returned tt
  \/ exists e, result (verify_caption w image_path caption) = Raised e.
Proof.
  assert (Hx : (exists t e, extract_objects_with_llm w caption = (t, Raised e))
               \/ exists t objs, extract_objects_with_llm w caption = (t, Returned objs)).
  { destruct (extract_run_shape w caption) as [[e H]|[[objs H]|[e H]]]; eauto. }
  destruct Hx as [(t & e & He)|(t & [|c cs] & He)].
  - right. exists e. by rewrite (verify_extraction_raised _ _ _ _ _ He).
  - left. by rewrite (verify_no_caption_objects _ _ _ _ He).
  - destruct (detect_run_shape w image_path) as [[e Hd]|[[e Hd]|[[|d ds] Hd]]].
    + right. exists e. by rewrite (verify_detection_raised _ _ _ _ _ _ _ _ He Hd).
    + right. exists e. by rewrite (verify_detection_raised _ _ _ _ _ _ _ _ He Hd).
    + left. by rewrite (verify_no_detections _ _ _ _ _ _ _ He Hd).
    + left. by rewrite (verify_completes _ _ _ _ _ _ _ _ _ He Hd).
Qed.

Lemma setup_environment_ends w :
  result (setup_environment w) = Returned tt
  \/ setup_environment w
     = ([EPrint OutDownloading; EDownload;
         EPrint (OutDownloadError
                   (match download w with
                    | DownloadRequestException text => text
                    | DownloadOk => EmptyString
                    end))],
        Exited 1).
Proof.
  unfold setup_environment. destruct (path_exists w DEFAULT_IMAGE_PATH); [by left|].
  destruct (download w); [by left | by right].
Qed.

(** X12. When the sample image is not on disk and its download fails,
    the script prints the error and exits with status 1 before [main]
    starts: no argument is looked at and no service is called. *)
Theorem download_failure_stops_the_script w args text :
  path_exists w DEFAULT_IMAGE_PATH = false ->
  download w = DownloadRequestException text ->
  script w args
  = ([EPrint OutDownloading; EDownload; EPrint (OutDownloadError text)], Exited 1)
  /\ exit_status (result (script w args)) = 1.
Proof.
  intros Hp Hd.
  assert (H : script w args
    = ([EPrint OutDownloading; EDownload; EPrint (OutDownloadError text)], Exited 1)).
  { unfold script, setup_environment. rewrite Hp, Hd. reflexivity. }
  rewrite H. split; reflexivity.
Qed.

Lemma download_failure_stops_the_script_witness :
  script MoreExamples.w_download_fails Examples.sample_args
  = ([EPrint OutDownloading; EDownload; EPrint (OutDownloadError "404 Client Error")],
     Exited 1)
  /\ exit_status (result (script MoreExamples.w_download_fails Examples.sample_args)) = 1.
Proof.
  apply (download_failure_stops_the_script MoreExamples.w_download_fails
           Examples.sample_args "404 Client Error"); reflexivity.
Defined.

(** X13. Without [--image] the path check of [main] always passes once
    [setup_environment] has returned, because the default path is the
    file that step has just ensured: the script goes on to
    [verify_caption] on the sample image. *)
Theorem default_image_is_always_found w args :
  arg_image args = None ->
  result (setup_environment w) = Returned tt ->
  script w args
  = (trace (setup_environment w)
       ++ trace (verify_caption (after_setup w) DEFAULT_IMAGE_PATH (arg_caption args)),
     result (verify_caption (after_setup w) DEFAULT_IMAGE_PATH (arg_caption args))).
Proof.
  intros Ha Hs. rewrite (script_after_setup w args Hs).
  unfold main, image_of. rewrite Ha. reflexivity.
Qed.

Lemma default_image_is_always_found_witness :
  script MoreExamples.w_fresh Examples.sample_args
  = ([EPrint OutDownloading; EDownload; EPrint OutDownloadComplete]
       ++ trace (verify_caption (after_setup MoreExamples.w_fresh) DEFAULT_IMAGE_PATH
                   "A cat and a dog"),
     result (verify_caption (after_setup MoreExamples.w_fresh) DEFAULT_IMAGE_PATH
               "A cat and a dog")).
Proof.
  apply (default_image_is_always_found MoreExamples.w_fresh Examples.sample_args);
    reflexivity.
Defined.

Lemma main_ends w args :
  result (main w args) = Returned tt \/ exists e, result (main w args) = Raised e.
Proof.
  unfold main. destruct (negb (path_exists w (image_of args))); [by left|].
  apply verify_caption_ends.
Qed.

(** X14. From the command line as typed, the exit status of the script
    is 0, 1 or 2.  It is 1 only after a failed download or an uncaught
    exception, and 2 only when argparse rejects the command line; a
    command line that parses therefore ends with 0 or 1. *)
Theorem script_exit_status w cmd :
  let r := result (script_entry w cmd) in
  exit_status r = 0
  \/ (exit_status r = 1 /\ (r = Exited 1 \/ exists e, r = Raised e))
  \/ (exit_status r = 2 /\ cmd = UsageError).
Proof.
  cbn zeta. destruct (setup_environment_ends w) as [Hs|Hs].
  - assert (Hr : result (script_entry w cmd) = result (main_entry (after_setup w) cmd)).
    { unfold script_entry. destruct (setup_environment w) as [ts os].
      simpl in Hs. subst os.
      by rewrite (bind_returned _ (fun _ => main_entry (after_setup w) cmd) ts tt eq_refl). }
    rewrite Hr. destruct cmd as [args| |]; simpl.
    + destruct (main_ends (after_setup w) args) as [H|[e H]]; rewrite H.
      * left. reflexivity.
      * right. left. split; [reflexivity|]. right. by exists e.
    + right. right. by split.
    + left. reflexivity.
  - right. left. unfold script_entry. rewrite Hs. split; [reflexivity|]. by left.
Qed.

(** X15. Seen from the script: when the image exists and the credential
    is missing, the run ends with the uncaught credential error right
    after the first step is announced, with status 1; no service has
    been called. *)
Theorem script_without_credential w args :
  result (setup_environment w) = Returned tt ->
  path_exists (after_setup w) (image_of args) = true ->
  truthy_key (GROQ_API_KEY w) = false ->
  script w args
  = (trace (setup_environment w) ++ preamble (image_of args) (arg_caption args),
     Raised missing_key_error)
  /\ exit_status (result (script w args)) = 1.
Proof.
  intros Hs Hp Hkey.
  assert (He : extract_objects_with_llm (after_setup w) (arg_caption args)
               = ([], Raised missing_key_error)).
  { unfold extract_objects_with_llm. simpl. rewrite Hkey. reflexivity. }
  assert (H : script w args
    = (trace (setup_environment w) ++ preamble (image_of args) (arg_caption args),
       Raised missing_key_error)).
  { rewrite (script_after_setup w args Hs). unfold main. rewrite Hp. simpl negb. cbv iota.
    rewrite (verify_extraction_raised _ _ _ _ _ He), app_nil_r. reflexivity. }
  rewrite H. split; reflexivity.
Qed.

Lemma script_without_credential_witness :
  script Examples.w_no_key Examples.sample_args
  = ([] ++ preamble DEFAULT_IMAGE_PATH "A cat and a dog", Raised missing_key_error)
  /\ exit_status (result (script Examples.w_no_key Examples.sample_args)) = 1.
Proof.
  apply (script_without_credential Examples.w_no_key Examples.sample_args); reflexivity.
Defined.

(** ** A complete run *)

(** X16. The whole of a successful verification, from the worlds'
    answers: with a credential, a reply holding a non-empty list and a
    model that reports at least one box, [verify_caption] calls the text
    service once, then the detector once, and ends with the four-line
    report over the set of caption tokens and the set of lower-cased
    class names. *)
Theorem successful_run w image_path caption data item items results :
  truthy_key (GROQ_API_KEY w) = true ->
  groq_client w = None ->
  groq_data w caption = inr data ->
  accepted_list data = Some (item :: items) ->
  yolo_load w = None ->
  yolo_class_names w image_path = inr results ->
  concat results <> [] ->
  let tokens := map item_token (item :: items) in
  let C : gset string := list_to_set tokens in
  let D : gset string := list_to_set (map PyStr.lower (concat results)) in
  verify_caption w image_path caption
  = (preamble image_path caption
       ++ [ECallGroq caption;
           EPrint (OutLLMIdentified tokens); EPrint OutStep2;
           EPrint OutLoadingModel; ELoadYolo; EPrint (OutAnalyzing image_path);
           ECallYolo image_path;
           EPrint (OutYoloDetected (elements D)); EPrint OutStep3;
           EPrint OutReportHeader;
           EPrint (if decide (C ## D) then OutNoneVerified else OutVerified (C ∩ D));
           EPrint (if decide (C ⊆ D) then OutNoHallucinations
                   else OutHallucinations (C ∖ D));
           EPrint OutReportFooter],
     Returned tt).
Proof.
  intros Hkey Hc Hg Ha Hl Hy Hne. cbn zeta.
  pose proof (extract_accepted w caption data _ Hkey Hc Hg Ha) as He.
  pose proof (detect_returns w image_path results Hl Hy) as Hd.
  rewrite <- collect_class_names_spec.
  destruct (elements (collect_class_names results)) as [|d ds] eqn:E.
  { by apply collected_empty in E. }
  change (map item_token (item :: items))
    with (item_token item :: map item_token items) in *.
  rewrite (verify_completes _ _ _ _ _ _ _ _ _ He Hd), print_report_lines.
  rewrite <- E, list_to_set_elements_L. reflexivity.
Qed.

Lemma successful_run_witness :
  verify_caption Examples.w_wrapped DEFAULT_IMAGE_PATH "A cat and a dog"
  = (let C : gset string := list_to_set ["cat"; "dog"] in
     let D : gset string := list_to_set ["dog"; "dog"; "couch"] in
     preamble DEFAULT_IMAGE_PATH "A cat and a dog"
       ++ [ECallGroq "A cat and a dog";
           EPrint (OutLLMIdentified ["cat"; "dog"]); EPrint OutStep2;
           EPrint OutLoadingModel; ELoadYolo; EPrint (OutAnalyzing DEFAULT_IMAGE_PATH);
           ECallYolo DEFAULT_IMAGE_PATH;
           EPrint (OutYoloDetected (elements D)); EPrint OutStep3;
           EPrint OutReportHeader;
           EPrint (if decide (C ## D) then OutNoneVerified else OutVerified (C ∩ D));
           EPrint (if decide (C ⊆ D) then OutNoHallucinations
                   else OutHallucinations (C ∖ D));
           EPrint OutReportFooter],
     Returned tt).
Proof.
  apply (successful_run Examples.w_wrapped DEFAULT_IMAGE_PATH "A cat and a dog"
           Examples.wrapped_reply (JStr "Cat") [JStr "Dog"] Examples.two_dogs);
    try reflexivity.
  discriminate.
Defined.
